(** * pr_agent/git_providers/git_provider.py

    A shallow embedding of the provider helpers of [git_provider.py]:
    [GitProvider.get_user_description], [GitProvider.get_pr_description],
    the free function [get_main_pr_language] and the class [IncrementalPR],
    together with the Python builtins they call.

    Conventions.
    - A Python [str] is a [string]; a character is a code point below 256,
      and [isspace] and [lower] follow Python on that range.
    - A value that may be [None] is an [option].
    - Code that may raise returns a [result]; [Raise e] is a propagating
      exception.
    - A [dict] is an association list in insertion order (its keys are
      distinct); iterating it yields the keys in that order. *)

From Stdlib Require Import List String Ascii ZArith Bool Arith Lia.
Import ListNotations.
Local Open Scope list_scope.
Local Open Scope string_scope.

(** ** Exceptions and results *)

Inductive exn : Type :=
| AttributeError
| IndexError
| TypeError
| ValueError.

Inductive result (A : Type) : Type :=
| Return (a : A)
| Raise (e : exn).

Arguments Return {A} a.
Arguments Raise {A} e.

Definition bind {A B : Type} (m : result A) (k : A -> result B) : result B :=
  match m with
  | Return a => k a
  | Raise e => Raise e
  end.

Notation "x <- m ;; k" := (bind m (fun x => k))
  (at level 61, m at next level, right associativity).

(** ** Python builtins on [str] *)

Module Py.

(** [x or ""] for an [x] that is a [str] or [None]: both [None] and the
    empty string are falsy, and the right operand is the empty string. *)
Definition or_empty (x : option string) : string :=
  match x with
  | Some s => s
  | None => ""
  end.

(** [str.isspace] on one character: TAB..CR, FS..US, space, NEL, NBSP. *)
Definition isspace (c : ascii) : bool :=
  let n := nat_of_ascii c in
  (((9 <=? n) && (n <=? 13)) || ((28 <=? n) && (n <=? 32))
   || (n =? 133) || (n =? 160))%nat.

(** [str.lower] on one character: A..Z and the Latin-1 capitals
    (all of 0xC0..0xDE but the multiplication sign 0xD7). *)
Definition lower_char (c : ascii) : ascii :=
  let n := nat_of_ascii c in
  if (((65 <=? n) && (n <=? 90))
      || ((192 <=? n) && (n <=? 222) && negb (n =? 215)))%nat
  then ascii_of_nat (n + 32)
  else c.

Fixpoint lower (s : string) : string :=
  match s with
  | EmptyString => EmptyString
  | String c s' => String (lower_char c) (lower s')
  end.

Fixpoint lstrip (s : string) : string :=
  match s with
  | EmptyString => EmptyString
  | String c s' => if isspace c then lstrip s' else s
  end.

Fixpoint rstrip (s : string) : string :=
  match s with
  | EmptyString => EmptyString
  | String c s' =>
      match rstrip s' with
      | EmptyString => if isspace c then EmptyString else String c EmptyString
      | r => String c r
      end
  end.

(** [s.strip()]: the slice between the first and the last character that is
    not whitespace. *)
Definition strip (s : string) : string := rstrip (lstrip s).

(** [s.startswith(p)]. *)
Fixpoint startswith (s p : string) {struct p} : bool :=
  match p, s with
  | EmptyString, _ => true
  | String _ _, EmptyString => false
  | String a p', String b s' => Ascii.eqb a b && startswith s' p'
  end.

(** [s.find(sub)]: the lowest index at which [sub] occurs, [None] for -1. *)
Fixpoint find (s sub : string) : option nat :=
  if startswith s sub then Some 0
  else match s with
       | EmptyString => None
       | String _ s' => option_map S (find s' sub)
       end.

(** [sub in s]. *)
Definition contains (sub s : string) : bool :=
  match find s sub with
  | Some _ => true
  | None => false
  end.

(** [s[:n]] and [s[n:]] for a non-negative [n]. *)
Fixpoint take (n : nat) (s : string) : string :=
  match n, s with
  | S n', String c s' => String c (take n' s')
  | _, _ => EmptyString
  end.

Fixpoint drop (n : nat) (s : string) : string :=
  match n, s with
  | S n', String _ s' => drop n' s'
  | _, _ => s
  end.

(** [s.split(sep, 1)]: at most one split, at the leftmost occurrence of
    [sep]; an empty separator is a [ValueError]. *)
Definition split_1 (s sep : string) : result (list string) :=
  if (sep =? "")%string then Raise ValueError
  else match find s sep with
       | None => Return [s]
       | Some i => Return [take i s; drop (i + String.length sep) s]
       end.

(** [l[i]] for a non-negative index [i]. *)
Definition getitem {A : Type} (l : list A) (i : nat) : result A :=
  match nth_error l i with
  | Some x => Return x
  | None => Raise IndexError
  end.

(** [s.rsplit(sep)] for a separator of one character and no [maxsplit]:
    [s] is cut at every [sep]; the list is the one [s.split(sep)] gives, and
    it is never empty. *)
Fixpoint rsplit (s : string) (sep : ascii) : list string :=
  match s with
  | EmptyString => [EmptyString]
  | String c s' =>
      if Ascii.eqb c sep then EmptyString :: rsplit s' sep
      else match rsplit s' sep with
           | seg :: segs => String c seg :: segs
           | [] => [String c EmptyString]
           end
  end.

(** [l.count(x)] on a list of strings. *)
Definition count (l : list string) (x : string) : Z :=
  Z.of_nat (count_occ string_dec l x).

(** [max(iterable, key=key)].  The keys are compared with [>], so the first
    of several maximal items wins; comparing with [None] is a [TypeError],
    and an empty iterable is a [ValueError]. *)
Fixpoint max_from {A : Type} (key : A -> option Z)
         (best : A) (kbest : option Z) (l : list A) : result A :=
  match l with
  | [] => Return best
  | x :: l' =>
      match key x, kbest with
      | Some v, Some m =>
          if (v >? m)%Z then max_from key x (Some v) l'
          else max_from key best kbest l'
      | _, _ => Raise TypeError
      end
  end.

Definition max_key {A : Type} (l : list A) (key : A -> option Z) : result A :=
  match l with
  | [] => Raise ValueError
  | x :: l' => max_from key x (key x) l'
  end.

(** [l[-1]]. *)
Definition getitem_last {A : Type} (l : list A) : result A :=
  match rev l with
  | x :: _ => Return x
  | [] => Raise IndexError
  end.

End Py.

(** ** [GitProvider]: the description helpers *)

(** The abstract method the helpers are written against.  A provider may
    hand back [None] for a pull request without a description. *)
Record GitProvider : Type := {
  get_pr_description_full : option string
}.

Definition get_user_description (self : GitProvider) : result string :=
  let description := Py.strip (Py.or_empty (get_pr_description_full self)) in
  if negb (Py.startswith description "## PR Type") then
    Return description
  else if negb (Py.contains "## User Description:" description) then
    Return ""
  else
    parts <- Py.split_1 description "## User Description:" ;;
    after <- Py.getitem parts 1 ;;
    Return (Py.strip after).

(** [get_settings().get(key, None)] and [clip_tokens] live in other modules
    of the package; the method is written against them. *)
Section Description.

Variable settings_get : string -> option Z.
Variable clip_tokens : option string -> Z -> option string.

Definition get_pr_description (self : GitProvider) (full : bool)
  : result (option string) :=
  let max_tokens := settings_get "CONFIG.MAX_DESCRIPTION_TOKENS" in
  description <-
    (if full then Return (get_pr_description_full self)
     else (d <- get_user_description self ;; Return (Some d))) ;;
  match max_tokens with
  | Some n =>
      if negb (n =? 0)%Z then Return (clip_tokens description n)
      else Return description
  | None => Return description
  end.

End Description.

(** ** [FilePatchInfo] and [get_main_pr_language] *)

Inductive EDIT_TYPE : Type :=
| ADDED
| DELETED
| MODIFIED
| RENAMED.

(** The dataclass does not check its fields: line 157 of the source itself
    passes [None] for the [str] fields, so every one of them is optional. *)
Record FilePatchInfo : Type := {
  base_file : option string;
  head_file : option string;
  patch : option string;
  filename : option string;
  tokens : Z;
  edit_type : EDIT_TYPE;
  old_filename : option string
}.

(** [FilePatchInfo(base_file=.., head_file=.., patch=.., filename=..)] with
    the defaults of the other fields. *)
Definition FilePatchInfo_init (base_file head_file patch filename : option string)
  : FilePatchInfo :=
  {| base_file := base_file; head_file := head_file; patch := patch;
     filename := filename; tokens := (-1)%Z; edit_type := MODIFIED;
     old_filename := None |}.

(** An entry of [files]: a bare filename or a [FilePatchInfo]. *)
Inductive file_entry : Type :=
| FileStr (s : string)
| FileInfo (f : FilePatchInfo).

(** The languages histogram: name to weight, in insertion order. *)
Definition dict : Type := list (string * Z).

Fixpoint dict_get (d : dict) (k : string) : option Z :=
  match d with
  | [] => None
  | (k', v) :: d' => if (k' =? k)%string then Some v else dict_get d' k
  end.

Definition dict_keys (d : dict) : list string := map fst d.

(** [not x] for a list, a dict or [None]. *)
Definition falsy {A : Type} (x : option (list A)) : bool :=
  match x with
  | Some (_ :: _) => false
  | _ => true
  end.

Inductive log_record : Type :=
| LogInfo (msg : string)
| LogException (e : exn).

(** Lines 156-158: the body of the loop, for one [file]. *)
Definition file_extension (file : file_entry) : result string :=
  let file :=
    match file with
    | FileStr s => FilePatchInfo_init None None None (Some s)
    | FileInfo f => f
    end in
  match filename file with
  | None => Raise AttributeError
  | Some name => Py.getitem_last (Py.rsplit name ".")
  end.

(** Lines 155-158: the loop, appending to [extension_list]. *)
Fixpoint extension_loop (files : list file_entry) (extension_list : list string)
  : result (list string) :=
  match files with
  | [] => Return extension_list
  | file :: files' =>
      ext <- file_extension file ;;
      extension_loop files' (extension_list ++ [ext])%list
  end.

(** Lines 164-179: the test of the [if]. *)
Definition language_matches (most_common_extension top_language : string) : bool :=
  ((most_common_extension =? "py") && (top_language =? "python") ||
   (most_common_extension =? "js") && (top_language =? "javascript") ||
   (most_common_extension =? "ts") && (top_language =? "typescript") ||
   (most_common_extension =? "go") && (top_language =? "go") ||
   (most_common_extension =? "java") && (top_language =? "java") ||
   (most_common_extension =? "c") && (top_language =? "c") ||
   (most_common_extension =? "cpp") && (top_language =? "c++") ||
   (most_common_extension =? "cs") && (top_language =? "c#") ||
   (most_common_extension =? "swift") && (top_language =? "swift") ||
   (most_common_extension =? "php") && (top_language =? "php") ||
   (most_common_extension =? "rb") && (top_language =? "ruby") ||
   (most_common_extension =? "rs") && (top_language =? "rust") ||
   (most_common_extension =? "scala") && (top_language =? "scala") ||
   (most_common_extension =? "kt") && (top_language =? "kotlin") ||
   (most_common_extension =? "pl") && (top_language =? "perl") ||
   (most_common_extension =? top_language))%string.

(** The order in which a [set] of strings is iterated depends on the hashes
    of the host; the detector is written against that order. *)
Section MainLanguage.

Variable set_iter : list string -> list string.

(** Line 151. *)
Definition top_language_of (languages : option dict) : result string :=
  match languages with
  | None => Raise AttributeError
  | Some d =>
      top <- Py.max_key (dict_keys d) (dict_get d) ;;
      Return (Py.lower top)
  end.

(** Lines 154-161. *)
Definition most_common_extension_of (files : option (list file_entry))
  : result string :=
  match files with
  | None => Raise TypeError
  | Some fl =>
      extension_list <- extension_loop fl [] ;;
      Py.max_key (set_iter extension_list)
                 (fun e => Some (Py.count extension_list e))
  end.

(** Lines 151-180: the body of the [try]. *)
Definition main_language_try (languages : option dict)
           (files : option (list file_entry)) (main_language_str : string)
  : result string :=
  top_language <- top_language_of languages ;;
  most_common_extension <- most_common_extension_of files ;;
  if language_matches most_common_extension top_language
  then Return top_language
  else Return main_language_str.

(** The function gives back what it logged and its outcome. *)
Definition get_main_pr_language (languages : option dict)
           (files : option (list file_entry))
  : list log_record * result string :=
  let main_language_str := "" in
  if falsy languages then
    ([LogInfo "No languages detected"], Return main_language_str)
  else if falsy files then
    ([LogInfo "No files in diff"], Return main_language_str)
  else
    match main_language_try languages files main_language_str with
    | Return s => ([], Return s)
    | Raise e => ([LogException e], Return main_language_str)
    end.

End MainLanguage.

(** A [set] iterated in the order of first insertion: one host's order. *)
Fixpoint set_first_seen (l : list string) : list string :=
  match l with
  | [] => []
  | x :: l' => x :: filter (fun y => negb (y =? x)%string) (set_first_seen l')
  end.

(** ** [IncrementalPR] *)

(** Commits and commit ranges are handles of the hosting platform's client;
    a commit carries its [sha]. *)
Section Incremental.

Variables Commit CommitsRange : Type.
Variable sha : Commit -> string.

Record IncrementalPR : Type := {
  is_incremental : bool;
  commits_range : option CommitsRange;
  first_new_commit : option Commit;
  last_seen_commit : option Commit
}.

Definition IncrementalPR_init (is_incremental : bool) : IncrementalPR :=
  {| is_incremental := is_incremental; commits_range := None;
     first_new_commit := None; last_seen_commit := None |}.

(** A property reads [self]; it gives back its value and the object as it
    leaves it. *)
Definition first_new_commit_sha (self : IncrementalPR)
  : option string * IncrementalPR :=
  (match first_new_commit self with
   | None => None
   | Some c => Some (sha c)
   end, self).

Definition last_seen_commit_sha (self : IncrementalPR)
  : option string * IncrementalPR :=
  (match last_seen_commit self with
   | None => None
   | Some c => Some (sha c)
   end, self).

End Incremental.

Arguments is_incremental {Commit CommitsRange} _.
Arguments commits_range {Commit CommitsRange} _.
Arguments first_new_commit {Commit CommitsRange} _.
Arguments last_seen_commit {Commit CommitsRange} _.
Arguments first_new_commit_sha {Commit CommitsRange} sha self.
Arguments last_seen_commit_sha {Commit CommitsRange} sha self.

(** ** Vocabulary of the specification *)

(** [sub] occurs in [s] at index [i]. *)
Definition occurs_at (sub s : string) (i : nat) : Prop :=
  exists pre post, s = pre ++ sub ++ post /\ String.length pre = i.

(** [s] contains [sub]. *)
Definition occurs (sub s : string) : Prop := exists i, occurs_at sub s i.

(** [s] begins, or ends, with a whitespace character. *)
Definition leading_space (s : string) : Prop :=
  exists c s', s = String c s' /\ Py.isspace c = true.

Definition trailing_space (s : string) : Prop :=
  exists s' c, s = s' ++ String c "" /\ Py.isspace c = true.

(** The extension-to-language table of the specification. *)
Definition extension_table : list (string * string) :=
  [("py", "python"); ("js", "javascript"); ("ts", "typescript");
   ("go", "go"); ("java", "java"); ("c", "c"); ("cpp", "c++"); ("cs", "c#");
   ("swift", "swift"); ("php", "php"); ("rb", "ruby"); ("rs", "rust");
   ("scala", "scala"); ("kt", "kotlin"); ("pl", "perl")].

(** The entry carries a filename: a bare string does, a [FilePatchInfo] does
    when its [filename] is not [None]. *)
Definition has_filename (file : file_entry) : Prop :=
  match file with
  | FileStr _ => True
  | FileInfo f => filename f <> None
  end.

(** Every character of [s] is whitespace (so is the empty string). *)
Fixpoint blank (s : string) : bool :=
  match s with
  | EmptyString => true
  | String c s' => Py.isspace c && blank s'
  end.

(** The filename an entry of [files] carries, [None] for a [FilePatchInfo]
    whose [filename] is [None]. *)
Definition entry_filename (file : file_entry) : option string :=
  match file with
  | FileStr s => Some s
  | FileInfo f => filename f
  end.

(** [set_iter] enumerates the distinct items of a list, each once. *)
Definition set_order (set_iter : list string -> list string) : Prop :=
  forall l, NoDup (set_iter l) /\ (forall x, In x (set_iter l) <-> In x l).

(** * Properties *)

(** ** Strings *)

Section StringFacts.

Implicit Types s p sub pre post : string.

Lemma append_empty_r s : s ++ "" = s.
Proof. induction s as [|c s IH]; simpl; [reflexivity | now rewrite IH]. Qed.

Lemma append_assoc s p q : (s ++ p) ++ q = s ++ p ++ q.
Proof. induction s as [|c s IH]; simpl; [reflexivity | now rewrite IH]. Qed.

Lemma length_append s p :
  String.length (s ++ p) = String.length s + String.length p.
Proof. induction s as [|c s IH]; simpl; [reflexivity | now rewrite IH]. Qed.

Lemma startswith_append p post : Py.startswith (p ++ post) p = true.
Proof.
  induction p as [|c p IH]; simpl; [reflexivity|].
  now rewrite Ascii.eqb_refl, IH.
Qed.

Lemma startswith_inv s p :
  Py.startswith s p = true -> exists post, s = p ++ post.
Proof.
  revert s; induction p as [|a p IH]; intros s H.
  - now exists s.
  - destruct s as [|b s]; simpl in H; [discriminate|].
    apply andb_true_iff in H as [Hab Hs].
    apply Ascii.eqb_eq in Hab; subst b.
    destruct (IH _ Hs) as [post ->]. now exists post.
Qed.

Lemma startswith_iff s p :
  Py.startswith s p = true <-> exists post, s = p ++ post.
Proof.
  split; [apply startswith_inv|].
  intros [post ->]; apply startswith_append.
Qed.

Lemma take_append pre post : Py.take (String.length pre) (pre ++ post) = pre.
Proof. induction pre as [|c pre IH]; simpl; [now destruct post | now rewrite IH]. Qed.

Lemma drop_append pre post : Py.drop (String.length pre) (pre ++ post) = post.
Proof. induction pre as [|c pre IH]; simpl; [reflexivity | exact IH]. Qed.

Lemma occurs_at_0 sub s : occurs_at sub s 0 <-> Py.startswith s sub = true.
Proof.
  rewrite startswith_iff. split.
  - intros (pre & post & -> & Hlen).
    destruct pre; [|discriminate]. now exists post.
  - intros [post ->]. now exists "", post.
Qed.

Lemma occurs_at_S sub c s i :
  occurs_at sub (String c s) (S i) <-> occurs_at sub s i.
Proof.
  split.
  - intros (pre & post & Heq & Hlen).
    destruct pre as [|a pre]; [discriminate|].
    simpl in Heq, Hlen. injection Heq as _ ->. injection Hlen as <-.
    now exists pre, post.
  - intros (pre & post & -> & <-). now exists (String c pre), post.
Qed.

Lemma occurs_at_empty sub i : occurs_at sub "" (S i) -> False.
Proof.
  intros (pre & post & Heq & Hlen). destruct pre; discriminate.
Qed.

(** [find] gives the first occurrence. *)
Lemma find_Some s sub i :
  Py.find s sub = Some i ->
  occurs_at sub s i /\ forall j, j < i -> ~ occurs_at sub s j.
Proof.
  revert i; induction s as [|c s IH]; intros i; simpl.
  - destruct (Py.startswith "" sub) eqn:E; [|discriminate].
    intros [= <-]. split; [now apply occurs_at_0 | lia].
  - destruct (Py.startswith (String c s) sub) eqn:E.
    + intros [= <-]. split; [now apply occurs_at_0 | lia].
    + destruct (Py.find s sub) as [i'|]; simpl; [|discriminate].
      intros [= <-]. destruct (IH i' eq_refl) as [Hocc Hmin].
      split; [now apply occurs_at_S|].
      intros [|j] Hj Hocc'.
      * apply occurs_at_0 in Hocc'. congruence.
      * apply occurs_at_S in Hocc'. apply (Hmin j); [lia | assumption].
Qed.

Lemma find_None s sub : Py.find s sub = None -> ~ occurs sub s.
Proof.
  induction s as [|c s IH]; simpl.
  - destruct (Py.startswith "" sub) eqn:E; [discriminate|].
    intros _ [[|i] Hocc].
    + apply occurs_at_0 in Hocc. congruence.
    + now apply occurs_at_empty in Hocc.
  - destruct (Py.startswith (String c s) sub) eqn:E; [discriminate|].
    destruct (Py.find s sub) as [i'|]; simpl; [discriminate|].
    intros _ [[|i] Hocc].
    + apply occurs_at_0 in Hocc. congruence.
    + apply occurs_at_S in Hocc. apply IH; [reflexivity | now exists i].
Qed.

(** [sub in s] decides [occurs]. *)
Lemma contains_iff sub s : Py.contains sub s = true <-> occurs sub s.
Proof.
  unfold Py.contains. destruct (Py.find s sub) as [i|] eqn:E.
  - split; [|reflexivity]. intros _. exists i. now apply find_Some.
  - split; [discriminate|]. intros H. now apply find_None in E.
Qed.

(** [find] at a first occurrence. *)
Lemma find_first s sub pre post :
  s = pre ++ sub ++ post ->
  (forall j, j < String.length pre -> ~ occurs_at sub s j) ->
  Py.find s sub = Some (String.length pre).
Proof.
  intros Hs Hfirst.
  assert (Hocc : occurs_at sub s (String.length pre)) by now exists pre, post.
  destruct (Py.find s sub) as [i|] eqn:E.
  - destruct (find_Some _ _ _ E) as [Hi Hmin].
    destruct (Nat.lt_trichotomy i (String.length pre)) as [Hlt|[->|Hgt]].
    + now elim (Hfirst i Hlt).
    + reflexivity.
    + now elim (Hmin _ Hgt).
  - elim (find_None _ _ E). now exists (String.length pre).
Qed.

(** [split(sep, 1)] cuts at the first occurrence. *)
Lemma split_1_first s sep pre post :
  sep <> "" ->
  s = pre ++ sep ++ post ->
  (forall j, j < String.length pre -> ~ occurs_at sep s j) ->
  Py.split_1 s sep = Return [pre; post].
Proof.
  intros Hsep Hs Hfirst. unfold Py.split_1.
  apply String.eqb_neq in Hsep. rewrite Hsep.
  rewrite (find_first _ _ _ _ Hs Hfirst). subst s.
  rewrite take_append.
  rewrite <- length_append, <- append_assoc, drop_append.
  reflexivity.
Qed.

End StringFacts.

(** ** [strip] *)

Section StripFacts.

Implicit Types s r : string.

Lemma rstrip_cons c s :
  Py.rstrip (String c s) =
  match Py.rstrip s with
  | EmptyString => if Py.isspace c then EmptyString else String c EmptyString
  | r => String c r
  end.
Proof. reflexivity. Qed.

Lemma rstrip_idempotent s : Py.rstrip (Py.rstrip s) = Py.rstrip s.
Proof.
  induction s as [|c s IH]; [reflexivity|].
  rewrite rstrip_cons. destruct (Py.rstrip s) as [|a r] eqn:E.
  - destruct (Py.isspace c) eqn:Hc; [reflexivity|].
    rewrite rstrip_cons; simpl. now rewrite Hc.
  - rewrite rstrip_cons, IH. reflexivity.
Qed.

(** What [lstrip] leaves begins with a character that is not whitespace. *)
Lemma lstrip_head s :
  Py.lstrip s = "" \/
  exists c r, Py.lstrip s = String c r /\ Py.isspace c = false.
Proof.
  induction s as [|c s IH]; simpl; [now left|].
  destruct (Py.isspace c) eqn:Hc; [exact IH|].
  right. now exists c, s.
Qed.

(** [rstrip] keeps a first character that is not whitespace. *)
Lemma rstrip_head c s :
  Py.isspace c = false -> exists r, Py.rstrip (String c s) = String c r.
Proof.
  intros Hc. rewrite rstrip_cons, Hc.
  destruct (Py.rstrip s) as [|a r]; eauto.
Qed.

Lemma strip_head s :
  Py.strip s = "" \/
  exists c r, Py.strip s = String c r /\ Py.isspace c = false.
Proof.
  unfold Py.strip. destruct (lstrip_head s) as [->|(c & r & -> & Hc)].
  - now left.
  - right. destruct (rstrip_head c r Hc) as [r' ->]. now exists c, r'.
Qed.

Lemma lstrip_fixed s : ~ leading_space s -> Py.lstrip s = s.
Proof.
  destruct s as [|c s]; [reflexivity|]. simpl. intros H.
  destruct (Py.isspace c) eqn:Hc; [|reflexivity].
  elim H. now exists c, s.
Qed.

Lemma strip_no_leading_space s : ~ leading_space (Py.strip s).
Proof.
  intros (c & s' & Heq & Hc).
  destruct (strip_head s) as [E|(c' & r & E & Hc')]; rewrite E in Heq.
  - discriminate.
  - injection Heq as -> _. congruence.
Qed.

Lemma rstrip_no_trailing_space s : ~ trailing_space (Py.rstrip s).
Proof.
  intros (s' & c & Heq & Hc). revert s' Heq.
  induction s as [|a s IH]; intros s' Heq.
  - destruct s'; discriminate.
  - rewrite rstrip_cons in Heq. destruct (Py.rstrip s) as [|b r] eqn:E.
    + destruct (Py.isspace a) eqn:Ha.
      * destruct s'; discriminate.
      * destruct s' as [|a' s']; simpl in Heq.
        -- injection Heq as ->. congruence.
        -- injection Heq as _ Heq. destruct s'; discriminate.
    + destruct s' as [|a' s']; simpl in Heq; [discriminate|].
      injection Heq as _ Heq. now apply (IH s').
Qed.

Lemma strip_no_trailing_space s : ~ trailing_space (Py.strip s).
Proof. apply rstrip_no_trailing_space. Qed.

Lemma strip_idempotent s : Py.strip (Py.strip s) = Py.strip s.
Proof.
  unfold Py.strip at 1.
  rewrite (lstrip_fixed _ (strip_no_leading_space s)).
  apply rstrip_idempotent.
Qed.

End StripFacts.

(** ** [get_user_description] *)

Section UserDescription.

Variable self : GitProvider.

(** The three ways out of the method, on the stripped description. *)
Lemma get_user_description_eq :
  let description := Py.strip (Py.or_empty (get_pr_description_full self)) in
  get_user_description self =
  if negb (Py.startswith description "## PR Type") then Return description
  else match Py.find description "## User Description:" with
       | None => Return ""
       | Some i =>
           Return (Py.strip
                     (Py.drop (i + String.length "## User Description:")
                              description))
       end.
Proof.
  intros description. unfold get_user_description. fold description.
  destruct (Py.startswith description "## PR Type"); simpl; [|reflexivity].
  unfold Py.contains, Py.split_1.
  destruct (Py.find description "## User Description:"); reflexivity.
Qed.

(** The method hands back a stripped string, whatever the description. *)
Lemma get_user_description_stripped :
  exists x, get_user_description self = Return (Py.strip x).
Proof.
  rewrite get_user_description_eq. cbv zeta.
  destruct (negb _); [eauto|].
  destruct (Py.find _ _); [eauto|]. now exists "".
Qed.

End UserDescription.

(** C1: when the stripped description starts with "## PR Type", the method
    returns the empty string if the stripped text does not contain
    "## User Description:", and otherwise the stripped text that follows the
    first occurrence of that marker (a first occurrence exists as soon as the
    marker occurs). *)
Theorem get_user_description_generated (self : GitProvider) (D : string) :
  get_pr_description_full self = Some D ->
  Py.startswith (Py.strip D) "## PR Type" = true ->
  (~ occurs "## User Description:" (Py.strip D) ->
   get_user_description self = Return "")
  /\ (forall pre post,
         Py.strip D = pre ++ "## User Description:" ++ post ->
         (forall j, j < String.length pre ->
                    ~ occurs_at "## User Description:" (Py.strip D) j) ->
         get_user_description self = Return (Py.strip post))
  /\ (occurs "## User Description:" (Py.strip D) ->
      exists pre post,
        Py.strip D = pre ++ "## User Description:" ++ post
        /\ (forall j, j < String.length pre ->
                      ~ occurs_at "## User Description:" (Py.strip D) j)).
Proof.
  intros Hfull Hstart.
  assert (Hdesc : Py.strip (Py.or_empty (get_pr_description_full self))
                  = Py.strip D) by now rewrite Hfull.
  repeat split.
  - intros Hno. rewrite get_user_description_eq. cbv zeta.
    rewrite Hdesc, Hstart. simpl negb. cbv iota.
    destruct (Py.find _ _) as [i|] eqn:E; [|reflexivity].
    elim Hno. exists i. now apply find_Some.
  - intros pre post Hsplit Hfirst.
    unfold get_user_description. rewrite Hdesc, Hstart. simpl negb. cbv iota.
    assert (Hin : Py.contains "## User Description:" (Py.strip D) = true).
    { apply contains_iff. exists (String.length pre). now exists pre, post. }
    rewrite Hin. simpl negb. cbv iota.
    rewrite (split_1_first _ _ pre post); [reflexivity|discriminate|assumption..].
  - intros [i Hocc].
    destruct (Py.find (Py.strip D) "## User Description:") as [k|] eqn:E.
    + destruct (find_Some _ _ _ E) as [(pre & post & Heq & Hlen) Hmin].
      exists pre, post. split; [assumption|]. now rewrite Hlen.
    + elim (find_None _ _ E). now exists i.
Qed.

Lemma get_user_description_generated_witness :
  let D := "## PR Type" ++ String "010" "...## User Description:"
           ++ String "010" "  hello  " in
  let self := {| get_pr_description_full := Some D |} in
  (~ occurs "## User Description:" (Py.strip D) ->
   get_user_description self = Return "")
  /\ (forall pre post,
         Py.strip D = pre ++ "## User Description:" ++ post ->
         (forall j, j < String.length pre ->
                    ~ occurs_at "## User Description:" (Py.strip D) j) ->
         get_user_description self = Return (Py.strip post))
  /\ (occurs "## User Description:" (Py.strip D) ->
      exists pre post,
        Py.strip D = pre ++ "## User Description:" ++ post
        /\ (forall j, j < String.length pre ->
                      ~ occurs_at "## User Description:" (Py.strip D) j)).
Proof.
  intros D self.
  apply (get_user_description_generated self D); reflexivity.
Defined.

(** The two examples of the specification. *)
Example get_user_description_hello :
  get_user_description
    {| get_pr_description_full :=
         Some ("## PR Type" ++ String "010" "...## User Description:"
               ++ String "010" "  hello  ") |}
  = Return "hello".
Proof. reflexivity. Qed.

Example get_user_description_no_section :
  get_user_description
    {| get_pr_description_full :=
         Some ("## PR Type" ++ String "010" "...no user section") |}
  = Return "".
Proof. reflexivity. Qed.

(** C2, as stated, fails: a description that begins with whitespace does not
    start with "## PR Type", yet it is stripped before the test. *)
Lemma get_user_description_raw_prefix_counterexample :
  let T := " ## PR Type" in
  Py.startswith T "## PR Type" = false
  /\ get_user_description {| get_pr_description_full := Some T |}
     <> Return (Py.strip T).
Proof. split; [reflexivity | discriminate]. Qed.

(** C2, amended: for every raw text T whose stripped form does not start
    with "## PR Type", the method returns the stripped T exactly. *)
Theorem get_user_description_roundtrip (self : GitProvider) (T : string) :
  get_pr_description_full self = Some T ->
  Py.startswith (Py.strip T) "## PR Type" = false ->
  get_user_description self = Return (Py.strip T).
Proof.
  intros Hfull Hstart. unfold get_user_description.
  rewrite Hfull. simpl Py.or_empty. now rewrite Hstart.
Qed.

Lemma get_user_description_roundtrip_witness :
  get_user_description
    {| get_pr_description_full := Some "  Fix the parser.  " |}
  = Return "Fix the parser.".
Proof.
  apply (get_user_description_roundtrip
           {| get_pr_description_full := Some "  Fix the parser.  " |}
           "  Fix the parser.  "); reflexivity.
Defined.

(** C9: when the full description is absent ([None]) or empty, the method
    returns the empty string and does not fail: the absent value becomes ""
    before it is stripped and tested. *)
Theorem get_user_description_absent (self : GitProvider) :
  get_pr_description_full self = None \/ get_pr_description_full self = Some "" ->
  Py.or_empty (get_pr_description_full self) = ""
  /\ get_user_description self = Return "".
Proof.
  unfold get_user_description. intros [-> | ->]; split; reflexivity.
Qed.

Lemma get_user_description_absent_witness :
  Py.or_empty None = ""
  /\ get_user_description {| get_pr_description_full := None |} = Return "".
Proof.
  apply (get_user_description_absent {| get_pr_description_full := None |}).
  left; reflexivity.
Defined.

(** C10: for every full description the method returns a string r with
    strip r = r: r neither begins nor ends with whitespace. *)
Theorem get_user_description_trimmed (self : GitProvider) :
  exists r,
    get_user_description self = Return r
    /\ Py.strip r = r
    /\ ~ leading_space r
    /\ ~ trailing_space r.
Proof.
  destruct (get_user_description_stripped self) as [x Hx].
  exists (Py.strip x). split; [assumption|]. split; [|split].
  - apply strip_idempotent.
  - apply strip_no_leading_space.
  - apply strip_no_trailing_space.
Qed.

(** ** [get_pr_description] *)

(** C7, as stated, fails: a budget that is set to 0 is falsy, and the
    description is then returned as it is, not clipped. *)
Lemma get_pr_description_zero_budget_counterexample :
  let settings_get := fun _ : string => Some 0%Z in
  let clip_tokens := fun (_ : option string) (_ : Z) => Some "" in
  let self := {| get_pr_description_full := Some "abc" |} in
  settings_get "CONFIG.MAX_DESCRIPTION_TOKENS" = Some 0%Z
  /\ get_pr_description settings_get clip_tokens self true
     <> Return (clip_tokens (get_pr_description_full self) 0%Z).
Proof. split; [reflexivity | discriminate]. Qed.

(** C7, amended: the method chooses the full description when [full] is
    true and the user description when it is false; when the configured
    budget is set to a value other than 0 the chosen text is passed through
    [clip_tokens] with that budget, and when the budget is not set, or is 0,
    the chosen text is returned unchanged. *)
Theorem get_pr_description_chooses_and_clips
        (settings_get : string -> option Z)
        (clip_tokens : option string -> Z -> option string)
        (self : GitProvider) (full : bool) :
  exists chosen,
    (if full then chosen = get_pr_description_full self
     else exists d, get_user_description self = Return d /\ chosen = Some d)
    /\ (forall n, settings_get "CONFIG.MAX_DESCRIPTION_TOKENS" = Some n ->
                  n <> 0%Z ->
                  get_pr_description settings_get clip_tokens self full
                  = Return (clip_tokens chosen n))
    /\ (settings_get "CONFIG.MAX_DESCRIPTION_TOKENS" = None
        \/ settings_get "CONFIG.MAX_DESCRIPTION_TOKENS" = Some 0%Z ->
        get_pr_description settings_get clip_tokens self full = Return chosen).
Proof.
  unfold get_pr_description. destruct full.
  - exists (get_pr_description_full self). split; [reflexivity|]. split.
    + intros n -> Hn. simpl. apply Z.eqb_neq in Hn. now rewrite Hn.
    + intros [-> | ->]; reflexivity.
  - destruct (get_user_description_stripped self) as [x Hx].
    exists (Some (Py.strip x)). split; [eauto|]. rewrite Hx. split.
    + intros n -> Hn. simpl. apply Z.eqb_neq in Hn. now rewrite Hn.
    + intros [-> | ->]; reflexivity.
Qed.

(** ** [IncrementalPR] *)

(** C8: [first_new_commit_sha] is [None] exactly when [first_new_commit] is
    [None] and is otherwise the sha of that commit; likewise
    [last_seen_commit_sha] for [last_seen_commit]; neither changes the
    object. *)
Theorem incremental_commit_shas
        (Commit CommitsRange : Type) (sha : Commit -> string)
        (self : IncrementalPR Commit CommitsRange) :
  ((fst (first_new_commit_sha sha self) = None <-> first_new_commit self = None)
   /\ (forall c, first_new_commit self = Some c ->
                 fst (first_new_commit_sha sha self) = Some (sha c))
   /\ snd (first_new_commit_sha sha self) = self)
  /\
  ((fst (last_seen_commit_sha sha self) = None <-> last_seen_commit self = None)
   /\ (forall c, last_seen_commit self = Some c ->
                 fst (last_seen_commit_sha sha self) = Some (sha c))
   /\ snd (last_seen_commit_sha sha self) = self).
Proof.
  unfold first_new_commit_sha, last_seen_commit_sha; simpl.
  split.
  - destruct (first_new_commit self) as [c|]; repeat split;
      try discriminate; try reflexivity.
    now intros c' [= ->].
  - destruct (last_seen_commit self) as [c|]; repeat split;
      try discriminate; try reflexivity.
    now intros c' [= ->].
Qed.

(** A fresh tracker has no commits, so both shas are absent. *)
Lemma IncrementalPR_init_shas
      (Commit CommitsRange : Type) (sha : Commit -> string) (b : bool) :
  fst (first_new_commit_sha sha (IncrementalPR_init Commit CommitsRange b)) = None
  /\ fst (last_seen_commit_sha sha (IncrementalPR_init Commit CommitsRange b)) = None.
Proof. split; reflexivity. Qed.

(** ** [get_main_pr_language]: the guards *)

(** C4: when [languages] is empty or absent the function returns the empty
    string at once, and likewise when [files] is empty or absent: only the
    informational message is logged, and the body of the [try] is not run. *)
Theorem get_main_pr_language_guards (set_iter : list string -> list string) :
  (forall languages files,
      languages = None \/ languages = Some [] ->
      get_main_pr_language set_iter languages files
      = ([LogInfo "No languages detected"], Return ""))
  /\ (forall languages files,
         files = None \/ files = Some [] ->
         get_main_pr_language set_iter languages files
         = ([LogInfo (if falsy languages then "No languages detected"
                      else "No files in diff")], Return "")).
Proof.
  split; intros languages files H; unfold get_main_pr_language.
  - now destruct H as [-> | ->].
  - destruct (falsy languages); [reflexivity|]. now destruct H as [-> | ->].
Qed.

(** ** Extensions *)

Section ExtensionFacts.

Variable sep : ascii.

Lemma rsplit_not_nil s : Py.rsplit s sep <> [].
Proof.
  destruct s as [|c s]; simpl; [discriminate|].
  destruct (Ascii.eqb c sep); [discriminate|].
  destruct (Py.rsplit s sep); discriminate.
Qed.

(** A cut at one separator cuts the list of segments in two. *)
Lemma rsplit_append pre post :
  Py.rsplit (pre ++ String sep post) sep
  = (Py.rsplit pre sep ++ Py.rsplit post sep)%list.
Proof.
  induction pre as [|c pre IH]; simpl.
  - now rewrite Ascii.eqb_refl.
  - rewrite IH. destruct (Ascii.eqb c sep); [reflexivity|].
    destruct (Py.rsplit pre sep) as [|seg segs] eqn:E; [|reflexivity].
    now elim (rsplit_not_nil pre).
Qed.

Lemma no_separator_cons c s :
  ~ occurs (String sep "") (String c s) ->
  Ascii.eqb c sep = false /\ ~ occurs (String sep "") s.
Proof.
  intros H. split.
  - destruct (Ascii.eqb c sep) eqn:E; [|reflexivity].
    apply Ascii.eqb_eq in E; subst c.
    elim H. exists 0. now exists "", s.
  - intros [i Hi]. apply H. exists (S i). now apply occurs_at_S.
Qed.

(** Without a separator the string is its own single segment. *)
Lemma rsplit_no_separator s :
  ~ occurs (String sep "") s -> Py.rsplit s sep = [s].
Proof.
  induction s as [|c s IH]; intros H; [reflexivity|].
  apply no_separator_cons in H as [Hc Hs].
  simpl. now rewrite Hc, (IH Hs).
Qed.

Lemma getitem_last_app {A : Type} (l : list A) (x : A) :
  Py.getitem_last (l ++ [x])%list = Return x.
Proof. unfold Py.getitem_last. now rewrite rev_app_distr. Qed.

(** The last segment is the text after the last separator. *)
Lemma rsplit_last_after pre ext :
  ~ occurs (String sep "") ext ->
  Py.getitem_last (Py.rsplit (pre ++ String sep ext) sep) = Return ext.
Proof.
  intros H. rewrite rsplit_append, (rsplit_no_separator _ H).
  apply getitem_last_app.
Qed.

Lemma rsplit_last_whole s :
  ~ occurs (String sep "") s ->
  Py.getitem_last (Py.rsplit s sep) = Return s.
Proof. intros H. now rewrite (rsplit_no_separator _ H). Qed.

(** Taking the last segment never fails. *)
Lemma rsplit_last_total s :
  exists ext, Py.getitem_last (Py.rsplit s sep) = Return ext.
Proof.
  unfold Py.getitem_last.
  destruct (rev (Py.rsplit s sep)) as [|x l] eqn:E; [|eauto].
  apply (f_equal (@rev string)) in E. rewrite rev_involutive in E.
  now elim (rsplit_not_nil s).
Qed.

End ExtensionFacts.

(** C6: for an entry of [files] whose filename is [name] (a bare string
    [name], handled as the [FilePatchInfo] with only [filename] set, or a
    [FilePatchInfo] with that filename), the extension is the text after the
    last '.' of [name], and all of [name] when it has no '.'. *)
Theorem file_extension_after_last_dot (file : file_entry) (name : string) :
  file = FileStr name
  \/ (exists f, file = FileInfo f /\ filename f = Some name) ->
  (forall pre ext,
      name = pre ++ "." ++ ext -> ~ occurs "." ext ->
      file_extension file = Return ext)
  /\ (~ occurs "." name -> file_extension file = Return name)
  /\ file_extension (FileStr name)
     = file_extension (FileInfo (FilePatchInfo_init None None None (Some name))).
Proof.
  intros Hfile.
  assert (Hext : file_extension file
                 = Py.getitem_last (Py.rsplit name ".")).
  { destruct Hfile as [-> | (f & -> & Hf)]; unfold file_extension; simpl.
    - reflexivity.
    - now rewrite Hf. }
  rewrite Hext. repeat split.
  - intros pre ext -> Hno. now apply rsplit_last_after.
  - apply rsplit_last_whole.
Qed.

Lemma file_extension_after_last_dot_witness :
  (forall pre ext,
      "src/app.test.py" = pre ++ "." ++ ext -> ~ occurs "." ext ->
      file_extension (FileStr "src/app.test.py") = Return ext)
  /\ (~ occurs "." "src/app.test.py" ->
      file_extension (FileStr "src/app.test.py") = Return "src/app.test.py")
  /\ file_extension (FileStr "src/app.test.py")
     = file_extension
         (FileInfo (FilePatchInfo_init None None None (Some "src/app.test.py"))).
Proof.
  apply (file_extension_after_last_dot (FileStr "src/app.test.py")).
  left; reflexivity.
Defined.

Example file_extension_examples :
  file_extension (FileStr "src/app.test.py") = Return "py"
  /\ file_extension (FileStr "Makefile") = Return "Makefile"
  /\ file_extension (FileStr "archive.") = Return ""
  /\ file_extension (FileInfo (FilePatchInfo_init None None None None))
     = Raise AttributeError.
Proof. repeat split. Qed.

(** ** [max] with a key *)

Section MaxFacts.

Context {A : Type}.
Variable key : A -> option Z.

Lemma max_from_spec l : forall best m,
  key best = Some m ->
  Forall (fun x => key x <> None) l ->
  exists y v,
    Py.max_from key best (Some m) l = Return y
    /\ key y = Some v
    /\ (y = best \/ In y l)
    /\ (m <= v)%Z
    /\ Forall (fun x => forall vx, key x = Some vx -> (vx <= v)%Z) l.
Proof.
  induction l as [|x l IH]; intros best m Hbest Hall.
  - exists best, m. repeat split; auto. lia.
  - inversion Hall as [|? ? Hx Hl]; subst.
    destruct (key x) as [vx|] eqn:Ex; [|congruence].
    simpl. rewrite Ex. destruct (vx >? m)%Z eqn:Hgt.
    + destruct (IH x vx Ex Hl) as (y & v & Hy & Hky & Hin & Hle & Hmax).
      exists y, v. repeat split; auto.
      * destruct Hin as [-> | Hin]; right; [now left | now right].
      * apply Z.gtb_lt in Hgt. lia.
      * constructor; [|assumption]. intros vx' Hvx'. congruence.
    + destruct (IH best m Hbest Hl) as (y & v & Hy & Hky & Hin & Hle & Hmax).
      exists y, v. repeat split; auto.
      * destruct Hin as [-> | Hin]; [now left | right; now right].
      * constructor; [|assumption]. intros vx' Hvx'.
        assert (vx' = vx) by congruence. subst vx'.
        destruct (Z.gtb_spec vx m); [discriminate | lia].
Qed.

(** On a list that is not empty and whose keys are all numbers, [max]
    returns an item of the list with the greatest key. *)
Lemma max_key_spec l :
  l <> [] ->
  Forall (fun x => key x <> None) l ->
  exists y v,
    Py.max_key l key = Return y
    /\ In y l
    /\ key y = Some v
    /\ (forall x vx, In x l -> key x = Some vx -> (vx <= v)%Z).
Proof.
  destruct l as [|x l]; [congruence|]. intros _ Hall.
  inversion Hall as [|? ? Hx Hl]; subst.
  destruct (key x) as [m|] eqn:Ex; [|congruence].
  destruct (max_from_spec l x m Ex Hl) as (y & v & Hy & Hky & Hin & Hle & Hmax).
  exists y, v. simpl. rewrite Ex. repeat split; auto.
  - destruct Hin as [-> | Hin]; [now left | now right].
  - intros x' vx [<- | Hin'] Hk.
    + assert (vx = m) by congruence. lia.
    + rewrite Forall_forall in Hmax. now apply (Hmax x').
Qed.

End MaxFacts.

(** ** The languages histogram *)

Lemma dict_get_keys (d : dict) (k : string) :
  In k (dict_keys d) <-> dict_get d k <> None.
Proof.
  induction d as [|[k' v] d IH]; simpl.
  - split; [tauto | congruence].
  - destruct (String.eqb_spec k' k) as [-> | Hne].
    + split; [discriminate | now left].
    + rewrite <- IH. split; [intros [H | H]; [congruence | assumption] | now right].
Qed.

(** [top_language_of] is defined on a histogram that is not empty: it is the
    lower-cased key of greatest weight. *)
Lemma top_language_spec (d : dict) :
  d <> [] ->
  exists k v,
    top_language_of (Some d) = Return (Py.lower k)
    /\ dict_get d k = Some v
    /\ (forall k' v', dict_get d k' = Some v' -> (v' <= v)%Z).
Proof.
  intros Hd.
  assert (Hkeys : dict_keys d <> []) by (destruct d; [congruence | discriminate]).
  assert (Hall : Forall (fun k => dict_get d k <> None) (dict_keys d)).
  { apply Forall_forall. intros k. apply dict_get_keys. }
  destruct (max_key_spec (dict_get d) _ Hkeys Hall) as (k & v & Hmax & Hin & Hk & Hle).
  exists k, v. unfold top_language_of. rewrite Hmax. repeat split; auto.
  intros k' v' Hk'. apply (Hle k'); [|assumption].
  apply dict_get_keys. congruence.
Qed.

(** ** The extension list *)

Lemma has_filename_extension (file : file_entry) :
  has_filename file -> exists ext, file_extension file = Return ext.
Proof.
  destruct file as [s | f]; unfold file_extension; simpl.
  - intros _. apply rsplit_last_total.
  - destruct (filename f) as [name|]; [|congruence].
    intros _. apply rsplit_last_total.
Qed.

(** The loop appends one extension per file, in order. *)
Lemma extension_loop_spec (files : list file_entry) :
  Forall has_filename files ->
  forall acc, exists exts,
    extension_loop files acc = Return (acc ++ exts)%list
    /\ Forall2 (fun f e => file_extension f = Return e) files exts.
Proof.
  induction 1 as [|file files Hfile _ IH]; intros acc.
  - exists []. simpl. now rewrite app_nil_r.
  - destruct (has_filename_extension file Hfile) as [ext Hext].
    destruct (IH (acc ++ [ext])%list) as (exts & Hloop & Hall).
    exists (ext :: exts). simpl. rewrite Hext. simpl.
    rewrite Hloop, <- app_assoc. split; [reflexivity | now constructor].
Qed.

Lemma set_first_seen_In (l : list string) (x : string) :
  In x (set_first_seen l) <-> In x l.
Proof.
  induction l as [|y l IH]; simpl; [tauto|].
  rewrite filter_In, IH, negb_true_iff, String.eqb_neq.
  destruct (string_dec y x) as [-> | Hne]; [tauto|].
  split; [tauto|]. intros [H | H]; [congruence|]. right. split; congruence.
Qed.

Lemma set_first_seen_order : set_order set_first_seen.
Proof.
  intros l. split; [|intros x; apply set_first_seen_In].
  induction l as [|y l IH]; simpl; constructor.
  - rewrite filter_In, negb_true_iff, String.eqb_neq. tauto.
  - now apply NoDup_filter.
Qed.

Section MostCommon.

Variable set_iter : list string -> list string.
Hypothesis set_iter_order : set_order set_iter.

(** [most_common_extension_of] is defined on a list of files that is not
    empty and whose entries have filenames: it is one of their extensions,
    and none occurs more often. *)
Lemma most_common_extension_spec (files : list file_entry) :
  files <> [] ->
  Forall has_filename files ->
  exists exts ext,
    Forall2 (fun f e => file_extension f = Return e) files exts
    /\ most_common_extension_of set_iter (Some files) = Return ext
    /\ In ext exts
    /\ (forall e, (Py.count exts e <= Py.count exts ext)%Z).
Proof.
  intros Hne Hall.
  destruct (extension_loop_spec files Hall []) as (exts & Hloop & Hexts).
  simpl in Hloop.
  assert (Hexts_ne : exts <> []).
  { intros ->. inversion Hexts; subst. congruence. }
  destruct (set_iter_order exts) as [_ Hin].
  assert (Hset_ne : set_iter exts <> []).
  { destruct exts as [|e exts']; [congruence|]. intros Hnil.
    assert (H : In e (set_iter (e :: exts'))) by (apply Hin; now left).
    now rewrite Hnil in H. }
  assert (Hkeys : Forall (fun e => Some (Py.count exts e) <> None)
                         (set_iter exts)).
  { apply Forall_forall. discriminate. }
  destruct (max_key_spec (fun e => Some (Py.count exts e)) _ Hset_ne Hkeys)
    as (ext & v & Hmax & Hext_in & Hv & Hle).
  exists exts, ext. unfold most_common_extension_of.
  rewrite Hloop. simpl. repeat split; auto.
  - now apply Hin.
  - intros e. injection Hv as <-.
    destruct (in_dec string_dec e exts) as [He | He].
    + apply (Hle e); [now apply Hin | reflexivity].
    + unfold Py.count.
      rewrite (proj1 (count_occ_not_In string_dec exts e) He). lia.
Qed.

(** When all files have the extension [e], it is the most common one. *)
Lemma most_common_extension_uniform (files : list file_entry) (e : string) :
  files <> [] ->
  Forall (fun f => file_extension f = Return e) files ->
  most_common_extension_of set_iter (Some files) = Return e.
Proof.
  intros Hne Hall.
  assert (Hnames : Forall has_filename files).
  { eapply Forall_impl; [|exact Hall]. intros [s | f]; simpl; [tauto|].
    unfold file_extension; simpl.
    destruct (filename f); [discriminate | discriminate]. }
  destruct (most_common_extension_spec files Hne Hnames)
    as (exts & ext & Hexts & Hmost & Hin & _).
  rewrite Hmost. f_equal.
  clear Hmost Hne Hnames. induction Hexts as [|f x files exts Hfx _ IH].
  - contradiction.
  - inversion Hall as [|? ? Hf Hfiles]; subst.
    destruct Hin as [<- | Hin]; [congruence | now apply IH].
Qed.

End MostCommon.

(** ** [get_main_pr_language]: the match *)

(** The test of the [if] is the table of the specification, or equality. *)
Lemma language_matches_iff (most_common_extension top_language : string) :
  language_matches most_common_extension top_language = true
  <-> In (most_common_extension, top_language) extension_table
      \/ most_common_extension = top_language.
Proof.
  unfold language_matches, extension_table. simpl In.
  rewrite !orb_true_iff, !andb_true_iff, !String.eqb_eq.
  split.
  - intros H. decompose [or and] H; subst; tauto.
  - intros [H | H]; [|tauto].
    decompose [or] H; try contradiction;
      match goal with E : (_, _) = (_, _) |- _ => injection E as <- <- end;
      tauto.
Qed.

(** Past the guards, the outcome is decided by the test of the [if]. *)
Lemma get_main_pr_language_decided
      (set_iter : list string -> list string)
      (languages : dict) (files : list file_entry)
      (top_language most_common_extension : string) :
  languages <> [] ->
  files <> [] ->
  top_language_of (Some languages) = Return top_language ->
  most_common_extension_of set_iter (Some files) = Return most_common_extension ->
  get_main_pr_language set_iter (Some languages) (Some files)
  = ([], Return (if language_matches most_common_extension top_language
                 then top_language else "")).
Proof.
  intros Hl Hf Htop Hext. unfold get_main_pr_language, main_language_try.
  destruct languages; [congruence|]. destruct files; [congruence|].
  cbn [falsy]. rewrite Htop, Hext. cbn [bind].
  now destruct (language_matches _ _).
Qed.

(** C3, as stated, fails in its "only if": when the top language is the
    empty string the function returns it (the initial value of the result)
    although neither the table nor equality matches. *)
Lemma get_main_pr_language_only_if_counterexample :
  let languages := [("", 1%Z)] in
  let files := [FileStr "a.py"] in
  top_language_of (Some languages) = Return ""
  /\ most_common_extension_of set_first_seen (Some files) = Return "py"
  /\ snd (get_main_pr_language set_first_seen (Some languages) (Some files))
     = Return ""
  /\ ~ (In ("py", "") extension_table \/ "py" = "").
Proof.
  repeat split. intros [H | H]; [|discriminate].
  simpl in H. decompose [or] H; try contradiction; discriminate.
Qed.

(** C3, amended: for a languages mapping and a files list that are not
    empty (every entry carrying a filename), with top_language the
    lower-cased key of greatest weight and most_common_extension the most
    common extension, the function returns top_language if the table maps
    most_common_extension to top_language or the two are equal, and the
    empty string otherwise; so, when top_language is not the empty string, it
    returns top_language if and only if one of the two holds.  In particular,
    when every file has the extension the table gives for top_language, the
    result is top_language. *)
Theorem get_main_pr_language_match
        (set_iter : list string -> list string)
        (languages : dict) (files : list file_entry) :
  set_order set_iter ->
  languages <> [] ->
  files <> [] ->
  Forall has_filename files ->
  exists top_language most_common_extension,
    (exists k v,
        top_language = Py.lower k
        /\ dict_get languages k = Some v
        /\ forall k' v', dict_get languages k' = Some v' -> (v' <= v)%Z)
    /\ top_language_of (Some languages) = Return top_language
    /\ most_common_extension_of set_iter (Some files)
       = Return most_common_extension
    /\ (In (most_common_extension, top_language) extension_table
        \/ most_common_extension = top_language ->
        snd (get_main_pr_language set_iter (Some languages) (Some files))
        = Return top_language)
    /\ (~ (In (most_common_extension, top_language) extension_table
           \/ most_common_extension = top_language) ->
        snd (get_main_pr_language set_iter (Some languages) (Some files))
        = Return "")
    /\ (top_language <> "" ->
        (snd (get_main_pr_language set_iter (Some languages) (Some files))
         = Return top_language
         <-> In (most_common_extension, top_language) extension_table
             \/ most_common_extension = top_language))
    /\ (forall e,
           Forall (fun f => file_extension f = Return e) files ->
           In (e, top_language) extension_table ->
           snd (get_main_pr_language set_iter (Some languages) (Some files))
           = Return top_language).
Proof.
  intros Hset Hl Hf Hnames.
  destruct (top_language_spec languages Hl) as (k & v & Htop & Hk & Hmax).
  destruct (most_common_extension_spec set_iter Hset files Hf Hnames)
    as (exts & ext & _ & Hext & _ & _).
  exists (Py.lower k), ext.
  pose proof (get_main_pr_language_decided set_iter languages files
                _ _ Hl Hf Htop Hext) as Hres.
  split; [now exists k, v|]. split; [assumption|]. split; [assumption|].
  split; [|split; [|split]].
  - intros Hm. apply language_matches_iff in Hm. now rewrite Hres, Hm.
  - intros Hm. rewrite Hres.
    destruct (language_matches ext (Py.lower k)) eqn:E; [|reflexivity].
    elim Hm. now apply language_matches_iff.
  - intros Hne. rewrite Hres. rewrite <- language_matches_iff.
    destruct (language_matches ext (Py.lower k)); simpl.
    + tauto.
    + split; [|discriminate]. intros [= H]. now elim Hne.
  - intros e Hall Hin.
    pose proof (most_common_extension_uniform set_iter Hset files e Hf Hall)
      as Hext'.
    rewrite (get_main_pr_language_decided set_iter languages files
               _ _ Hl Hf Htop Hext').
    assert (Hm : language_matches e (Py.lower k) = true)
      by (apply language_matches_iff; now left).
    now rewrite Hm.
Qed.

Lemma get_main_pr_language_match_witness :
  snd (get_main_pr_language set_first_seen
         (Some [("Python", 120%Z); ("JavaScript", 30%Z)])
         (Some [FileStr "a.py"; FileStr "b.py"; FileStr "c.js"]))
  = Return "python".
Proof.
  destruct (get_main_pr_language_match set_first_seen
              [("Python", 120%Z); ("JavaScript", 30%Z)]
              [FileStr "a.py"; FileStr "b.py"; FileStr "c.js"]
              set_first_seen_order
              ltac:(discriminate) ltac:(discriminate)
              ltac:(repeat constructor))
    as (top & ext & _ & Htop & Hext & Hyes & _).
  vm_compute in Htop, Hext.
  injection Htop as <-. injection Hext as <-.
  apply Hyes. left. simpl. tauto.
Defined.

(** The two examples of the specification. *)
Example get_main_pr_language_examples :
  get_main_pr_language set_first_seen
    (Some [("Python", 120%Z); ("JavaScript", 30%Z)])
    (Some [FileStr "a.py"; FileStr "b.py"; FileStr "c.js"])
  = ([], Return "python")
  /\ get_main_pr_language set_first_seen
       (Some [("Python", 120%Z)]) (Some [FileStr "a.rs"])
     = ([], Return "").
Proof. split; reflexivity. Qed.

(** ** [get_main_pr_language]: failures *)

(** C5: the function returns a string for every input and never lets an
    exception out: a failure in the body of the [try] is logged and the
    result is the empty string. *)
Theorem get_main_pr_language_never_raises
        (set_iter : list string -> list string)
        (languages : option dict) (files : option (list file_entry)) :
  exists s,
    snd (get_main_pr_language set_iter languages files) = Return s
    /\ (forall e,
           main_language_try set_iter languages files "" = Raise e -> s = "")
    /\ (forall e,
           falsy languages = false -> falsy files = false ->
           main_language_try set_iter languages files "" = Raise e ->
           fst (get_main_pr_language set_iter languages files)
           = [LogException e]).
Proof.
  unfold get_main_pr_language.
  destruct (falsy languages) eqn:Hl.
  - exists "". repeat split; auto. discriminate.
  - destruct (falsy files) eqn:Hf.
    + exists "". repeat split; auto. discriminate.
    + destruct (main_language_try set_iter languages files "") as [s | e] eqn:E.
      * exists s. repeat split; discriminate.
      * exists "". repeat split; auto. now intros e' _ _ [= <-].
Qed.

(** Malformed inputs: filenames without an extension raise nothing; a
    [FilePatchInfo] without a filename and a set that yields nothing raise
    inside the [try] only. *)
Example get_main_pr_language_malformed :
  get_main_pr_language set_first_seen
    (Some [("Python", 1%Z)]) (Some [FileStr "Makefile"; FileStr "README"])
  = ([], Return "")
  /\ get_main_pr_language set_first_seen
       (Some [("Python", 1%Z)])
       (Some [FileStr "a.py"; FileInfo (FilePatchInfo_init None None None None)])
     = ([LogException AttributeError], Return "")
  /\ get_main_pr_language (fun _ => [])
       (Some [("Python", 1%Z)]) (Some [FileStr "a.py"])
     = ([LogException ValueError], Return "").
Proof. repeat split. Qed.


(** * Further properties *)

(** ** [strip] cuts a piece out of its argument *)

Lemma lstrip_suffix (s : string) : exists a, s = a ++ Py.lstrip s.
Proof.
  induction s as [|c s [a IH]]; simpl.
  - now exists "".
  - destruct (Py.isspace c).
    + exists (String c a). simpl. now rewrite <- IH.
    + now exists "".
Qed.

Lemma rstrip_prefix (s : string) : exists b, s = Py.rstrip s ++ b.
Proof.
  induction s as [|c s [b IH]].
  - now exists "".
  - rewrite rstrip_cons. destruct (Py.rstrip s) as [|a r].
    + destruct (Py.isspace c).
      * now exists (String c s).
      * exists s. reflexivity.
    + exists b. simpl. simpl in IH. now rewrite <- IH.
Qed.

Lemma strip_infix (s : string) : exists a b, s = a ++ Py.strip s ++ b.
Proof.
  destruct (lstrip_suffix s) as [a Ha].
  destruct (rstrip_prefix (Py.lstrip s)) as [b Hb].
  exists a, b. unfold Py.strip. now rewrite <- Hb.
Qed.

Lemma take_drop (n : nat) (s : string) : s = Py.take n s ++ Py.drop n s.
Proof.
  revert s; induction n as [|n IH]; intros [|c s]; simpl; try reflexivity.
  now rewrite <- IH.
Qed.

Lemma infix_trans (s t a b a' b' r : string) :
  s = a ++ t ++ b -> t = a' ++ r ++ b' -> s = (a ++ a') ++ r ++ (b' ++ b).
Proof. intros -> ->. now rewrite !append_assoc. Qed.

(** ** Blank text *)

Lemma lstrip_blank_append (w s : string) :
  blank w = true -> Py.lstrip (w ++ s) = Py.lstrip s.
Proof.
  induction w as [|c w IH]; simpl; [reflexivity|].
  intros H. apply andb_true_iff in H as [Hc Hw]. now rewrite Hc, IH.
Qed.

Lemma rstrip_blank (w : string) : blank w = true -> Py.rstrip w = "".
Proof.
  induction w as [|c w IH]; [reflexivity|]. simpl blank.
  intros H. apply andb_true_iff in H as [Hc Hw].
  now rewrite rstrip_cons, (IH Hw), Hc.
Qed.

Lemma rstrip_append_blank (s w : string) :
  blank w = true -> Py.rstrip (s ++ w) = Py.rstrip s.
Proof.
  intros Hw. induction s as [|c s IH]; simpl append.
  - now apply rstrip_blank.
  - now rewrite !rstrip_cons, IH.
Qed.

Lemma lstrip_blank (w : string) : blank w = true -> Py.lstrip w = "".
Proof.
  intros Hw. rewrite <- (append_empty_r w). now rewrite lstrip_blank_append.
Qed.

(** Whitespace after the text is left to [rstrip]. *)
Lemma strip_append_blank (s w : string) :
  blank w = true -> Py.strip (s ++ w) = Py.strip s.
Proof.
  intros Hw. unfold Py.strip. induction s as [|c s IH]; simpl.
  - now rewrite (lstrip_blank _ Hw).
  - destruct (Py.isspace c); [exact IH|].
    change (String c (s ++ w)) with (String c s ++ w).
    now apply rstrip_append_blank.
Qed.

Lemma strip_padded (l s t : string) :
  blank l = true -> blank t = true -> Py.strip (l ++ s ++ t) = Py.strip s.
Proof.
  intros Hl Ht. rewrite <- append_assoc, (strip_append_blank _ _ Ht).
  unfold Py.strip. now rewrite (lstrip_blank_append _ _ Hl).
Qed.

(** ** [get_user_description]: further properties *)

(** X1: the user description is a contiguous piece of the full description
    (of "" when it is [None]): the method returns some r with
    full = a ++ r ++ b, so it never holds text that is not in the
    description and is never longer than it. *)
Theorem get_user_description_infix (self : GitProvider) :
  exists r a b,
    get_user_description self = Return r
    /\ Py.or_empty (get_pr_description_full self) = a ++ r ++ b
    /\ String.length r
       <= String.length (Py.or_empty (get_pr_description_full self)).
Proof.
  assert (Hlen : forall s a r b, s = a ++ r ++ b ->
                                 String.length r <= String.length s).
  { intros s a r b ->. rewrite !length_append. lia. }
  set (full := Py.or_empty (get_pr_description_full self)).
  destruct (strip_infix full) as (a & b & Hfull).
  pose proof (get_user_description_eq self) as Heq. cbv zeta in Heq.
  fold full in Heq. rewrite Heq.
  destruct (negb (Py.startswith (Py.strip full) "## PR Type")).
  - exists (Py.strip full), a, b. eauto.
  - destruct (Py.find (Py.strip full) "## User Description:") as [i|].
    + set (k := i + String.length "## User Description:").
      destruct (strip_infix (Py.drop k (Py.strip full))) as (a' & b' & Hdrop).
      assert (Hstrip : Py.strip full
                       = (Py.take k (Py.strip full) ++ a')
                           ++ Py.strip (Py.drop k (Py.strip full)) ++ b').
      { rewrite append_assoc, <- Hdrop. apply take_drop. }
      pose proof (infix_trans _ _ _ _ _ _ _ Hfull Hstrip) as H.
      eexists _, _, _. split; [reflexivity|]. split; [exact H|].
      exact (Hlen _ _ _ _ H).
    + exists "", "", full. repeat split. simpl. lia.
Qed.

(** X2: whitespace around the full description does not change the user
    description. *)
Theorem get_user_description_padding
        (self self' : GitProvider) (D l t : string) :
  blank l = true ->
  blank t = true ->
  get_pr_description_full self = Some D ->
  get_pr_description_full self' = Some (l ++ D ++ t) ->
  get_user_description self' = get_user_description self.
Proof.
  intros Hl Ht Hself Hself'. unfold get_user_description.
  rewrite Hself, Hself'. simpl Py.or_empty.
  now rewrite (strip_padded _ _ _ Hl Ht).
Qed.

Lemma get_user_description_padding_witness :
  get_user_description
    {| get_pr_description_full :=
         Some (String "010" " " ++ "Fix the parser." ++ String "009" " ") |}
  = get_user_description {| get_pr_description_full := Some "Fix the parser." |}.
Proof.
  apply (get_user_description_padding
           {| get_pr_description_full := Some "Fix the parser." |}
           {| get_pr_description_full :=
                Some (String "010" " " ++ "Fix the parser." ++ String "009" " ") |}
           "Fix the parser." (String "010" " ") (String "009" " "));
    reflexivity.
Defined.

(** X3: a full description made of whitespace only has no user
    description: the method returns the empty string. *)
Theorem get_user_description_blank (self : GitProvider) (D : string) :
  blank D = true ->
  get_pr_description_full self = Some D ->
  get_user_description self = Return "".
Proof.
  intros HD Hself. unfold get_user_description.
  rewrite Hself. simpl Py.or_empty.
  assert (H : Py.strip D = "").
  { unfold Py.strip. now rewrite (lstrip_blank _ HD). }
  now rewrite H.
Qed.

Lemma get_user_description_blank_witness :
  get_user_description
    {| get_pr_description_full := Some (String "010" (String "009" "  ")) |}
  = Return "".
Proof.
  apply (get_user_description_blank
           {| get_pr_description_full := Some (String "010" (String "009" "  ")) |}
           (String "010" (String "009" "  "))); reflexivity.
Defined.

(** X4: a user description that does not itself start with "## PR Type" is
    stable: given back as the full description, the method returns it
    unchanged. *)
Theorem get_user_description_stable (self : GitProvider) (r : string) :
  get_user_description self = Return r ->
  Py.startswith r "## PR Type" = false ->
  get_user_description {| get_pr_description_full := Some r |} = Return r.
Proof.
  intros Hr Hstart.
  destruct (get_user_description_stripped self) as [x Hx].
  rewrite Hx in Hr. injection Hr as <-.
  unfold get_user_description. cbn [get_pr_description_full Py.or_empty].
  now rewrite strip_idempotent, Hstart.
Qed.

Lemma get_user_description_stable_witness :
  get_user_description {| get_pr_description_full := Some "hello" |}
  = Return "hello".
Proof.
  apply (get_user_description_stable
           {| get_pr_description_full :=
                Some ("## PR Type" ++ String "010" "...## User Description:"
                      ++ String "010" "  hello  ") |} "hello");
    reflexivity.
Defined.

(** Without the side condition the method is not stable: a user section
    that starts with the marker is read as a generated description. *)
Example get_user_description_not_stable :
  let first :=
    {| get_pr_description_full :=
         Some "## PR Type ## User Description: ## PR Type again" |} in
  get_user_description first = Return "## PR Type again"
  /\ get_user_description
       {| get_pr_description_full := Some "## PR Type again" |}
     = Return "".
Proof. split; reflexivity. Qed.

(** ** [get_pr_description]: the user description *)

(** X5: with [full] false the text the method works on is never [None] and
    is stripped: a budget other than 0 clips that stripped string, and with
    no budget (or 0) the method returns it, also for a provider whose full
    description is [None]. *)
Theorem get_pr_description_user_stripped
        (settings_get : string -> option Z)
        (clip_tokens : option string -> Z -> option string)
        (self : GitProvider) :
  exists r,
    Py.strip r = r
    /\ (forall n, settings_get "CONFIG.MAX_DESCRIPTION_TOKENS" = Some n ->
                  n <> 0%Z ->
                  get_pr_description settings_get clip_tokens self false
                  = Return (clip_tokens (Some r) n))
    /\ (settings_get "CONFIG.MAX_DESCRIPTION_TOKENS" = None
        \/ settings_get "CONFIG.MAX_DESCRIPTION_TOKENS" = Some 0%Z ->
        get_pr_description settings_get clip_tokens self false
        = Return (Some r)).
Proof.
  destruct (get_user_description_stripped self) as [x Hx].
  exists (Py.strip x). split; [apply strip_idempotent|].
  unfold get_pr_description. rewrite Hx. split.
  - intros n -> Hn. simpl. apply Z.eqb_neq in Hn. now rewrite Hn.
  - intros [-> | ->]; reflexivity.
Qed.

(** ** Extensions: the general shape *)

(** A string has no [sep], or it splits at its last [sep]. *)
Lemma last_separator (sep : ascii) (s : string) :
  ~ occurs (String sep "") s
  \/ exists pre ext,
       s = pre ++ String sep ext /\ ~ occurs (String sep "") ext.
Proof.
  induction s as [|c s IH].
  - left. intros [i (pre & post & Heq & _)]. destruct pre; discriminate.
  - destruct IH as [Hno | (pre & ext & -> & Hext)].
    + destruct (Ascii.eqb_spec c sep) as [-> | Hne].
      * right. now exists "", s.
      * left. intros [[|i] Hi].
        -- apply occurs_at_0 in Hi. simpl in Hi.
           apply andb_true_iff in Hi as [Hi _].
           apply Ascii.eqb_eq in Hi. congruence.
        -- apply occurs_at_S in Hi. apply Hno. now exists i.
    + right. now exists (String c pre), ext.
Qed.

Lemma file_extension_by_name (file : file_entry) :
  file_extension file =
  match entry_filename file with
  | None => Raise AttributeError
  | Some name => Py.getitem_last (Py.rsplit name ".")
  end.
Proof. destruct file; reflexivity. Qed.

(** X6: for every entry that carries a filename the extension is defined,
    holds no '.', and is either the whole filename or what follows a '.'
    at the end of it. *)
Theorem file_extension_shape (file : file_entry) (name : string) :
  entry_filename file = Some name ->
  exists ext,
    file_extension file = Return ext
    /\ ~ occurs "." ext
    /\ (name = ext \/ exists pre, name = pre ++ "." ++ ext).
Proof.
  intros Hname. rewrite file_extension_by_name, Hname.
  destruct (last_separator "." name) as [Hno | (pre & ext & -> & Hext)].
  - exists name. split; [now apply rsplit_last_whole|]. split; [assumption|].
    now left.
  - exists ext. split; [now apply rsplit_last_after|]. split; [assumption|].
    right. now exists pre.
Qed.

Lemma file_extension_shape_witness :
  exists ext,
    file_extension (FileStr "src/app.test.py") = Return ext
    /\ ~ occurs "." ext
    /\ ("src/app.test.py" = ext \/ exists pre, "src/app.test.py" = pre ++ "." ++ ext).
Proof.
  apply (file_extension_shape (FileStr "src/app.test.py") "src/app.test.py").
  reflexivity.
Defined.

(** ** [get_main_pr_language]: what an answer means *)

Lemma lower_char_idempotent (c : ascii) :
  Py.lower_char (Py.lower_char c) = Py.lower_char c.
Proof. destruct c as [[] [] [] [] [] [] [] []]; vm_compute; reflexivity. Qed.

Lemma lower_idempotent (s : string) : Py.lower (Py.lower s) = Py.lower s.
Proof.
  induction s as [|c s IH]; simpl; [reflexivity|].
  now rewrite lower_char_idempotent, IH.
Qed.

Lemma top_language_lower (languages : option dict) (s : string) :
  top_language_of languages = Return s -> Py.lower s = s.
Proof.
  unfold top_language_of. destruct languages as [d|]; [|discriminate].
  destruct (Py.max_key (dict_keys d) (dict_get d)) as [k|]; simpl;
    [|discriminate].
  intros [= <-]. apply lower_idempotent.
Qed.

(** The outcome is the empty string or the top language after a match. *)
Lemma get_main_pr_language_cases
      (set_iter : list string -> list string)
      (languages : option dict) (files : option (list file_entry)) :
  snd (get_main_pr_language set_iter languages files) = Return ""
  \/ exists top ext,
       top_language_of languages = Return top
       /\ most_common_extension_of set_iter files = Return ext
       /\ language_matches ext top = true
       /\ get_main_pr_language set_iter languages files = ([], Return top).
Proof.
  unfold get_main_pr_language.
  destruct (falsy languages); [now left|].
  destruct (falsy files); [now left|].
  unfold main_language_try.
  destruct (top_language_of languages) as [top|]; simpl; [|now left].
  destruct (most_common_extension_of set_iter files) as [ext|]; simpl;
    [|now left].
  destruct (language_matches ext top) eqn:E; [|now left].
  right. now exists top, ext.
Qed.

(** X7: an answer other than the empty string is always the top language,
    backed by a match: the most common extension is defined and the table
    maps it to the answer, or it equals the answer; nothing was logged. *)
Theorem get_main_pr_language_sound
        (set_iter : list string -> list string)
        (languages : option dict) (files : option (list file_entry))
        (s : string) :
  snd (get_main_pr_language set_iter languages files) = Return s ->
  s <> "" ->
  exists ext,
    top_language_of languages = Return s
    /\ most_common_extension_of set_iter files = Return ext
    /\ (In (ext, s) extension_table \/ ext = s)
    /\ fst (get_main_pr_language set_iter languages files) = [].
Proof.
  intros Hs Hne.
  destruct (get_main_pr_language_cases set_iter languages files)
    as [H | (top & ext & Htop & Hext & Hm & Hres)].
  - rewrite H in Hs. injection Hs as <-. now elim Hne.
  - rewrite Hres in Hs. simpl in Hs. injection Hs as <-.
    exists ext. repeat split; auto.
    + now apply language_matches_iff.
    + now rewrite Hres.
Qed.

Lemma get_main_pr_language_sound_witness :
  exists ext,
    top_language_of (Some [("Python", 120%Z); ("JavaScript", 30%Z)])
    = Return "python"
    /\ most_common_extension_of set_first_seen
         (Some [FileStr "a.py"; FileStr "b.py"; FileStr "c.js"]) = Return ext
    /\ (In (ext, "python") extension_table \/ ext = "python")
    /\ fst (get_main_pr_language set_first_seen
              (Some [("Python", 120%Z); ("JavaScript", 30%Z)])
              (Some [FileStr "a.py"; FileStr "b.py"; FileStr "c.js"])) = [].
Proof.
  apply (get_main_pr_language_sound set_first_seen
           (Some [("Python", 120%Z); ("JavaScript", 30%Z)])
           (Some [FileStr "a.py"; FileStr "b.py"; FileStr "c.js"]) "python");
    [reflexivity | discriminate].
Defined.

(** X8: whatever the input, the answer is in lower case: it is left
    unchanged by [lower]. *)
Theorem get_main_pr_language_lower
        (set_iter : list string -> list string)
        (languages : option dict) (files : option (list file_entry)) :
  exists s,
    snd (get_main_pr_language set_iter languages files) = Return s
    /\ Py.lower s = s.
Proof.
  destruct (get_main_pr_language_cases set_iter languages files)
    as [H | (top & ext & Htop & _ & _ & Hres)].
  - exists "". now split.
  - exists top. rewrite Hres. split; [reflexivity|].
    now apply (top_language_lower languages).
Qed.

(** ** Ties and majorities *)

Section FirstMaximum.

Context {A : Type}.
Variable key : A -> option Z.
Variable y : A.
Variable v : Z.
Hypothesis key_y : key y = Some v.

(** Once [y] is the best so far, items that are not greater leave it. *)
Lemma max_from_stays (l2 : list A) :
  Forall (fun x => exists vx, key x = Some vx /\ (vx <= v)%Z) l2 ->
  Py.max_from key y (Some v) l2 = Return y.
Proof.
  induction 1 as [|x l2 (vx & Hx & Hle) _ IH]; simpl; [reflexivity|].
  rewrite Hx. destruct (Z.gtb_spec vx v); [lia | exact IH].
Qed.

(** Smaller items before [y] do not keep [max] from reaching it. *)
Lemma max_from_reaches (l1 l2 : list A) :
  Forall (fun x => exists vx, key x = Some vx /\ (vx < v)%Z) l1 ->
  Forall (fun x => exists vx, key x = Some vx /\ (vx <= v)%Z) l2 ->
  forall best m, (m < v)%Z ->
    Py.max_from key best (Some m) (l1 ++ y :: l2) = Return y.
Proof.
  intros H1 H2. induction H1 as [|x l1 (vx & Hx & Hlt) _ IH]; intros best m Hm.
  - simpl. rewrite key_y. destruct (Z.gtb_spec v m); [|lia].
    now apply max_from_stays.
  - simpl. rewrite Hx. destruct (vx >? m)%Z; now apply IH.
Qed.

(** [max] returns the first item whose key is the greatest. *)
Lemma max_key_first_maximum (l1 l2 : list A) :
  Forall (fun x => exists vx, key x = Some vx /\ (vx < v)%Z) l1 ->
  Forall (fun x => exists vx, key x = Some vx /\ (vx <= v)%Z) l2 ->
  Py.max_key (l1 ++ y :: l2) key = Return y.
Proof.
  intros H1 H2. destruct l1 as [|x l1]; simpl.
  - rewrite key_y. now apply max_from_stays.
  - inversion H1 as [|? ? (vx & Hx & Hlt) H1']; subst.
    rewrite Hx. now apply max_from_reaches.
Qed.

End FirstMaximum.

Lemma dict_get_In (d : dict) (k : string) (v : Z) :
  NoDup (dict_keys d) -> In (k, v) d -> dict_get d k = Some v.
Proof.
  induction d as [|[k0 v0] d IH]; simpl; [tauto|].
  intros Hnd Hin. inversion Hnd as [|? ? Hk0 Hnd']; subst.
  destruct Hin as [[= -> ->] | Hin].
  - now rewrite String.eqb_refl.
  - destruct (String.eqb_spec k0 k) as [-> | _]; [|now apply IH].
    elim Hk0. unfold dict_keys. apply in_map_iff. now exists (k, v).
Qed.

(** X9: the top language is the first key, in the order of the mapping,
    whose weight is the greatest: a key whose weight is greater than every
    weight before it and not smaller than any after it wins, so among equal
    greatest weights the earliest key is taken. *)
Theorem top_language_first_maximum
        (l1 l2 : dict) (k : string) (v : Z) :
  NoDup (dict_keys (l1 ++ (k, v) :: l2)%list) ->
  (forall k' v', In (k', v') l1 -> (v' < v)%Z) ->
  (forall k' v', In (k', v') l2 -> (v' <= v)%Z) ->
  top_language_of (Some (l1 ++ (k, v) :: l2)%list) = Return (Py.lower k).
Proof.
  intros Hnd H1 H2. set (d := (l1 ++ (k, v) :: l2)%list) in *.
  assert (Hk : dict_get d k = Some v).
  { apply dict_get_In; [assumption|]. apply in_or_app. right. now left. }
  assert (Hkeys : dict_keys d = (dict_keys l1 ++ k :: dict_keys l2)%list).
  { unfold d, dict_keys. now rewrite map_app. }
  unfold top_language_of. rewrite Hkeys.
  rewrite (max_key_first_maximum (dict_get d) k v Hk); [reflexivity| |].
  - apply Forall_forall. intros k' Hin.
    apply in_map_iff in Hin as ([k'' v'] & <- & Hin). exists v'. split.
    + apply dict_get_In; [assumption|]. apply in_or_app. now left.
    + now apply (H1 k'').
  - apply Forall_forall. intros k' Hin.
    apply in_map_iff in Hin as ([k'' v'] & <- & Hin). exists v'. split.
    + apply dict_get_In; [assumption|]. apply in_or_app. right. now right.
    + now apply (H2 k'').
Qed.

Lemma top_language_first_maximum_witness :
  top_language_of
    (Some ([("Go", 10%Z)] ++ ("Python", 50%Z) :: [("Rust", 50%Z); ("C", 7%Z)])%list)
  = Return (Py.lower "Python").
Proof.
  apply (top_language_first_maximum
           [("Go", 10%Z)] [("Rust", 50%Z); ("C", 7%Z)] "Python" 50%Z).
  - repeat constructor; simpl; intuition discriminate.
  - intros k' v' [[= <- <-] | []]. lia.
  - intros k' v' [[= <- <-] | [[= <- <-] | []]]; lia.
Defined.

Lemma extensions_unique (files : list file_entry) (exts exts' : list string) :
  Forall2 (fun f e => file_extension f = Return e) files exts ->
  Forall2 (fun f e => file_extension f = Return e) files exts' ->
  exts = exts'.
Proof.
  intros H. revert exts'. induction H as [|f e files exts Hf _ IH];
    intros exts' H'; inversion H'; subst; [reflexivity|].
  f_equal; [congruence | now apply IH].
Qed.

Lemma extensions_have_filenames (files : list file_entry) (exts : list string) :
  Forall2 (fun f e => file_extension f = Return e) files exts ->
  Forall has_filename files.
Proof.
  induction 1 as [|f e files exts Hf _ IH]; constructor; [|assumption].
  destruct f as [s | f]; simpl; [exact I|].
  unfold file_extension in Hf; simpl in Hf.
  destruct (filename f); [discriminate | discriminate].
Qed.

(** X10: an extension that occurs more often than every other one is the
    most common extension, in whatever order the set is iterated. *)
Theorem most_common_extension_majority
        (set_iter : list string -> list string)
        (files : list file_entry) (exts : list string) (e : string) :
  set_order set_iter ->
  files <> [] ->
  Forall2 (fun f x => file_extension f = Return x) files exts ->
  (forall e', e' <> e -> (Py.count exts e' < Py.count exts e)%Z) ->
  most_common_extension_of set_iter (Some files) = Return e.
Proof.
  intros Hset Hne Hexts Hmaj.
  pose proof (extensions_have_filenames _ _ Hexts) as Hnames.
  destruct (most_common_extension_spec set_iter Hset files Hne Hnames)
    as (exts0 & ext & Hexts0 & Hmost & _ & Hmax).
  rewrite (extensions_unique _ _ _ Hexts0 Hexts) in Hmax.
  rewrite Hmost. f_equal.
  destruct (string_dec ext e) as [-> | Hdiff]; [reflexivity|].
  specialize (Hmaj ext Hdiff). specialize (Hmax e). lia.
Qed.

Lemma most_common_extension_majority_witness :
  most_common_extension_of set_first_seen
    (Some [FileStr "c.js"; FileStr "a.py"; FileStr "b.py"]) = Return "py".
Proof.
  apply (most_common_extension_majority set_first_seen
           [FileStr "c.js"; FileStr "a.py"; FileStr "b.py"]
           ["js"; "py"; "py"] "py").
  - exact set_first_seen_order.
  - discriminate.
  - repeat constructor.
  - intros e' Hne. unfold Py.count.
    change (count_occ string_dec ["js"; "py"; "py"] "py") with 2.
    cbn [count_occ].
    destruct (string_dec "js" e'); destruct (string_dec "py" e');
      try congruence; lia.
Defined.

(** ** [get_main_pr_language]: what the answer depends on *)

(** X11: on a languages mapping and a files list that are not empty, with a
    filename in every entry, the body of the [try] does not raise: nothing
    is logged. *)
Theorem get_main_pr_language_quiet
        (set_iter : list string -> list string)
        (languages : dict) (files : list file_entry) :
  set_order set_iter ->
  languages <> [] ->
  files <> [] ->
  Forall has_filename files ->
  fst (get_main_pr_language set_iter (Some languages) (Some files)) = [].
Proof.
  intros Hset Hl Hf Hnames.
  destruct (top_language_spec languages Hl) as (k & v & Htop & _).
  destruct (most_common_extension_spec set_iter Hset files Hf Hnames)
    as (exts & ext & _ & Hext & _).
  now rewrite (get_main_pr_language_decided set_iter languages files
                 _ _ Hl Hf Htop Hext).
Qed.

Lemma get_main_pr_language_quiet_witness :
  fst (get_main_pr_language set_first_seen
         (Some [("Python", 120%Z)]) (Some [FileStr "a.rs"; FileStr "Makefile"]))
  = [].
Proof.
  apply (get_main_pr_language_quiet set_first_seen
           [("Python", 120%Z)] [FileStr "a.rs"; FileStr "Makefile"]).
  - exact set_first_seen_order.
  - discriminate.
  - discriminate.
  - repeat constructor.
Defined.

Lemma extension_loop_by_name (files files' : list file_entry) :
  map entry_filename files = map entry_filename files' ->
  forall acc, extension_loop files acc = extension_loop files' acc.
Proof.
  revert files'. induction files as [|f files IH]; intros [|f' files'] H acc;
    try discriminate; [reflexivity|].
  simpl in H. injection H as Hf Hfiles. simpl.
  rewrite !file_extension_by_name, Hf.
  destruct (entry_filename f') as [name|]; [|reflexivity].
  destruct (Py.getitem_last (Py.rsplit name ".")) as [ext|]; simpl;
    [now apply IH | reflexivity].
Qed.

(** X12: of a [FilePatchInfo] only the filename counts: two files lists
    whose entries carry the same filenames, as bare strings or not and
    whatever their other fields, give the same log and the same answer. *)
Theorem get_main_pr_language_by_filename
        (set_iter : list string -> list string)
        (languages : option dict) (files files' : list file_entry) :
  map entry_filename files = map entry_filename files' ->
  get_main_pr_language set_iter languages (Some files)
  = get_main_pr_language set_iter languages (Some files').
Proof.
  intros H. unfold get_main_pr_language, main_language_try,
              most_common_extension_of.
  rewrite (extension_loop_by_name _ _ H []).
  destruct files, files'; try discriminate; reflexivity.
Qed.

Lemma get_main_pr_language_by_filename_witness :
  get_main_pr_language set_first_seen (Some [("Python", 120%Z)])
    (Some [FileInfo {| base_file := Some "old"; head_file := Some "new";
                       patch := Some "@@ -1 +1 @@"; filename := Some "a.py";
                       tokens := 12%Z; edit_type := RENAMED;
                       old_filename := Some "b.py" |}])
  = get_main_pr_language set_first_seen (Some [("Python", 120%Z)])
      (Some [FileStr "a.py"]).
Proof.
  apply (get_main_pr_language_by_filename set_first_seen
           (Some [("Python", 120%Z)])).
  reflexivity.
Defined.

(** X13: when one extension occurs more often than every other one, the
    outcome does not depend on the order in which the set is iterated. *)
Theorem get_main_pr_language_order_free
        (set_iter set_iter' : list string -> list string)
        (languages : option dict)
        (files : list file_entry) (exts : list string) (e : string) :
  set_order set_iter ->
  set_order set_iter' ->
  Forall2 (fun f x => file_extension f = Return x) files exts ->
  (forall e', e' <> e -> (Py.count exts e' < Py.count exts e)%Z) ->
  get_main_pr_language set_iter languages (Some files)
  = get_main_pr_language set_iter' languages (Some files).
Proof.
  intros Hset Hset' Hexts Hmaj.
  destruct files as [|f files]; [reflexivity|].
  assert (Hne : f :: files <> []) by discriminate.
  pose proof (most_common_extension_majority set_iter _ _ _
                Hset Hne Hexts Hmaj) as H.
  pose proof (most_common_extension_majority set_iter' _ _ _
                Hset' Hne Hexts Hmaj) as H'.
  unfold get_main_pr_language, main_language_try. now rewrite H, H'.
Qed.

(** Another host's order: the first-seen order backwards. *)
Lemma set_last_seen_order : set_order (fun l => rev (set_first_seen l)).
Proof.
  intros l. destruct (set_first_seen_order l) as [Hnd Hin]. split.
  - now apply NoDup_rev.
  - intros x. now rewrite <- in_rev.
Qed.

Lemma get_main_pr_language_order_free_witness :
  get_main_pr_language set_first_seen (Some [("Python", 120%Z)])
    (Some [FileStr "c.js"; FileStr "a.py"; FileStr "b.py"])
  = get_main_pr_language (fun l => rev (set_first_seen l))
      (Some [("Python", 120%Z)])
      (Some [FileStr "c.js"; FileStr "a.py"; FileStr "b.py"]).
Proof.
  apply (get_main_pr_language_order_free
           set_first_seen (fun l => rev (set_first_seen l))
           (Some [("Python", 120%Z)])
           [FileStr "c.js"; FileStr "a.py"; FileStr "b.py"]
           ["js"; "py"; "py"] "py").
  - exact set_first_seen_order.
  - exact set_last_seen_order.
  - repeat constructor.
  - intros e' Hne. unfold Py.count.
    change (count_occ string_dec ["js"; "py"; "py"] "py") with 2.
    cbn [count_occ].
    destruct (string_dec "js" e'); destruct (string_dec "py" e');
      try congruence; lia.
Defined.

(** On a tie the outcome does depend on that order. *)
Example get_main_pr_language_tie :
  get_main_pr_language set_first_seen (Some [("Python", 120%Z)])
    (Some [FileStr "a.py"; FileStr "b.js"]) = ([], Return "python")
  /\ get_main_pr_language (fun l => rev (set_first_seen l))
       (Some [("Python", 120%Z)])
       (Some [FileStr "a.py"; FileStr "b.js"]) = ([], Return "").
Proof. split; reflexivity. Qed.
